(** * jetson_tensorrt: the DIGITS classifier wrapper and its engine bookkeeping

    A shallow embedding of [DIGITSClassifier.cpp] together with the
    declarations of [TensorRTEngine.h] and [DIGITSDetector.h].

    The wrapper is orchestration around the TensorRT / CUDA runtime.  Its
    methods are embedded as programs in a small monad that threads the
    [DIGITSClassifier] object and the state of everything outside the
    translation unit (the engine base class, the vendor runtime, the file
    system, the GPU), and that records every call into the engine classes and
    the preprocessor, the base-class constructor included, together with the
    way it came back (the operations of [std::string] and [std::vector] are
    not recorded).  The behaviour of those calls is a parameter of the
    development: every statement about the wrapper holds for all behaviours
    of the runtime. *)

From Stdlib Require Import ZArith List String Bool Lia.
Import ListNotations.
Local Open Scope Z_scope.

(* ------------------------------------------------------------------------- *)
(** ** Machine data *)

(** [size_t] on the Jetson boards (aarch64, LP64): 64 bits, arithmetic wraps. *)
Definition SIZE_BITS : Z := 64.
Definition size_wrap (n : Z) : Z := n mod 2 ^ SIZE_BITS.
Definition size_mul (a b : Z) : Z := size_wrap (a * b).

(** [int]: 32 bits, two's complement.  A [size_t] (or any integer) stored
    into an [int] keeps its low 32 bits: the value itself when it is below
    2^31, its wrap-around otherwise (the conversion g++ documents, and the
    only one since C++20). *)
Definition INT_BITS : Z := 32.
Definition int_of_size_t (n : Z) : Z :=
  (n + 2 ^ (INT_BITS - 1)) mod 2 ^ INT_BITS - 2 ^ (INT_BITS - 1).
Arguments int_of_size_t : simpl never.

(** [sizeof(float)] and [sizeof(float4)] (CUDA's [vector_types.h]). *)
Definition sizeof_float : Z := 4.
Definition sizeof_float4 : Z := 16.

(** Pointers are addresses; [nullptr] is address 0. *)
Definition ptr : Type := Z.
Definition nullptr : ptr := 0.

(** A [float] is only ever passed along by this code: its binary32 pattern. *)
Definition float32 : Type := Z.
Record float3 : Type := mkFloat3 { f3_x : float32; f3_y : float32; f3_z : float32 }.

(** [nvinfer1::DataType]. *)
Inductive DataType : Type := kFLOAT | kHALF | kINT8 | kINT32.

(** [nvinfer1::Dims]: [int nbDims] and the entries of [int d[]] that were
    written, in index order.  Every entry is an [int]: values enter [d]
    through [DimsCHW] and [Dims_set_d] only, which convert them. *)
Record Dims : Type := mkDims { nbDims : Z; d : list Z }.

(** [nvinfer1::Dims dims;]: nothing written yet. *)
Definition Dims_declared : Dims := {| nbDims := 0; d := [] |}.

(** [dims.nbDims = n;] for an [int] [n]. *)
Definition Dims_set_nbDims (n : Z) (dims : Dims) : Dims :=
  {| nbDims := n; d := d dims |}.

(** [dims.d[0] = v;]: the value is converted to the [int] it is stored in. *)
Definition Dims_set_d0 (v : Z) (dims : Dims) : Dims :=
  {| nbDims := nbDims dims; d := int_of_size_t v :: tl (d dims) |}.

(** [nvinfer1::DimsCHW(int channels, int height, int width)]: the arguments
    are converted to the [int] parameters. *)
Definition DimsCHW (channels height width : Z) : Dims :=
  {| nbDims := 3;
     d := [int_of_size_t channels; int_of_size_t height; int_of_size_t width] |}.

(** [MemoryLocation] (TensorRTEngine.h: "HOST, DEVICE, or MAPPED"). *)
Inductive MemoryLocation : Type := HOST | DEVICE | MAPPED.

(** [LocatedExecutionMemory]: buffers indexed by [batchIndex][inputIndex]. *)
Record LocatedExecutionMemory : Type :=
  mkLocatedExecutionMemory { location : MemoryLocation; batch : list (list ptr) }.

(** [memory[b][i]]: [std::vector::operator[]] twice; out of range it is
    undefined behaviour, here [None]. *)
Definition at_index (m : LocatedExecutionMemory) (b i : nat) : option ptr :=
  match nth_error (batch m) b with
  | Some row => nth_error row i
  | None => None
  end.

(** Exceptions.  [ModelDeserializeException] stands for every exception object
    the handler [catch (ModelDeserializeException&)] accepts; anything else
    is an [OtherException]. *)
Inductive exception : Type :=
| ModelDeserializeException
| OtherException (what : string).

Definition is_ModelDeserializeException (e : exception) : bool :=
  match e with
  | ModelDeserializeException => true
  | OtherException _ => false
  end.

(** How a call ends. *)
Inductive Outcome (A : Type) : Type :=
| Returns (a : A)
| Throws (e : exception)
| Undefined.
Arguments Returns {A} a.
Arguments Throws {A} e.
Arguments Undefined {A}.

(* ------------------------------------------------------------------------- *)
(** ** Calls that leave the translation unit *)

Inductive Call : Type :=
| CallCaffeRTEngine
| CallAddInput (layerName : string) (dims : Dims) (eleSize : Z)
| CallAddOutput (layerName : string) (dims : Dims) (eleSize : Z)
| CallLoadCache (cachePath : string) (maxBatchSize : Z)
| CallLoadModel (prototextPath modelPath : string) (maxBatchSize : Z)
            (dataType : DataType) (maxNetworkSize : Z)
| CallSaveCache (cachePath : string)
| CallNewImageNetPreprocessor (mean : float3)
| CallInputFromHost (self : ptr) (host : ptr) (bytes : Z)
| CallRBGAtoBGR (self : ptr) (width height modelWidth modelHeight : Z)
| CallPredict (inputs : LocatedExecutionMemory) (copyOutputToHost : bool).

(** The C++ return type of each call. *)
Definition ret_type (c : Call) : Type :=
  match c with
  | CallNewImageNetPreprocessor _ => ptr
  | CallRBGAtoBGR _ _ _ _ _ => ptr
  | CallPredict _ _ => LocatedExecutionMemory
  | _ => unit
  end.

(** What the record of a call keeps of its result. *)
Inductive Value : Type :=
| VVoid
| VPtr (p : ptr)
| VMemory (m : LocatedExecutionMemory).

Definition to_value (c : Call) : ret_type c -> Value :=
  match c return ret_type c -> Value with
  | CallNewImageNetPreprocessor _ => VPtr
  | CallRBGAtoBGR _ _ _ _ _ => VPtr
  | CallPredict _ _ => VMemory
  | _ => fun _ => VVoid
  end.

Inductive Reply : Type :=
| Returned (v : Value)
| Threw (e : exception)
| Crashed.

Definition reply_of (c : Call) (o : Outcome (ret_type c)) : Reply :=
  match o with
  | Returns a => Returned (to_value c a)
  | Throws e => Threw e
  | Undefined => Crashed
  end.

Record Event : Type := mkEvent { call : Call; reply : Reply }.

(** Classification of events by the function called. *)
Definition is_CaffeRTEngine (c : Call) : bool :=
  match c with CallCaffeRTEngine => true | _ => false end.
Definition is_LoadModel (c : Call) : bool :=
  match c with CallLoadModel _ _ _ _ _ => true | _ => false end.
Definition is_Predict (c : Call) : bool :=
  match c with CallPredict _ _ => true | _ => false end.

Definition count_calls (p : Call -> bool) (t : list Event) : nat :=
  List.length (filter (fun ev => p (call ev)) t).


(** The last call of a trace. *)
Definition last_event (t : list Event) : option Event := hd_error (rev t).

(** [a] is immediately followed by [b] in a trace. *)
Inductive next_to {A : Type} (a b : A) : list A -> Prop :=
| next_here : forall l, next_to a b (a :: b :: l)
| next_later : forall x l, next_to a b l -> next_to a b (x :: l).



(** [a] occurs somewhere before [b] in a trace. *)
Inductive before {A : Type} (a b : A) : list A -> Prop :=
| before_here : forall l, In b l -> before a b (a :: l)
| before_later : forall x l, before a b l -> before a b (x :: l).

(* ------------------------------------------------------------------------- *)
(** ** The classifier object *)

(** The fields of [DIGITSClassifier] that [DIGITSClassifier.cpp] writes. *)
Record DIGITSClassifier : Type := mkDIGITSClassifier {
  modelWidth : Z;
  modelHeight : Z;
  modelDepth : Z;
  preprocessor : ptr
}.

Definition INPUT_NAME : string := "data".
Definition OUTPUT_NAME : string := "prob".

(* ------------------------------------------------------------------------- *)
(** ** The monad of wrapper methods *)

Section Wrapper.

(** Everything outside the translation unit: the engine base class
    ([CaffeRTEngine] / [TensorRTEngine]), the preprocessor, TensorRT, the
    file system and the GPU. *)
Variable World : Type.

(** What a call does there: how it ends, and the world it leaves. *)
Variable vendor : forall c : Call, World -> Outcome (ret_type c) * World.

Record Run (A : Type) : Type := mkRun {
  outcome : Outcome A;
  object : DIGITSClassifier;
  world : World;
  trace : list Event
}.
Arguments mkRun {A} _ _ _ _.
Arguments outcome {A} _.
Arguments object {A} _.
Arguments world {A} _.
Arguments trace {A} _.

Definition M (A : Type) : Type := DIGITSClassifier -> World -> Run A.

Definition ret {A : Type} (a : A) : M A :=
  fun this w => mkRun (Returns a) this w [].

(** The events of a first part of a method put in front of the rest. *)
Definition prepend {A : Type} (t : list Event) (r : Run A) : Run A :=
  match r with
  | mkRun oc this w t' => mkRun oc this w (t ++ t')
  end.

Definition bind {A B : Type} (m : M A) (f : A -> M B) : M B :=
  fun this w =>
    match m this w with
    | mkRun (Returns a) this' w' t => prepend t (f a this' w')
    | mkRun (Throws e) this' w' t => mkRun (Throws e) this' w' t
    | mkRun Undefined this' w' t => mkRun Undefined this' w' t
    end.

(** [try { body } catch (E&) { handler }], [accepts] deciding [E]. *)
Definition try_catch {A : Type} (body : M A) (accepts : exception -> bool)
           (handler : M A) : M A :=
  fun this w =>
    match body this w with
    | mkRun (Throws e) this' w' t =>
        if accepts e then prepend t (handler this' w')
        else mkRun (Throws e) this' w' t
    | r => r
    end.

(** A call into the outside world, recorded in the trace. *)
Definition invoke (c : Call) : M (ret_type c) :=
  fun this w =>
    let (o, w') := vendor c w in
    mkRun o this w' [mkEvent c (reply_of c o)].

(** Reading and writing the fields of [*this]. *)
Definition get_this : M DIGITSClassifier :=
  fun this w => mkRun (Returns this) this w [].
Definition set_this (f : DIGITSClassifier -> DIGITSClassifier) : M unit :=
  fun this w => mkRun (Returns tt) (f this) w [].

(** Undefined behaviour. *)
Definition undefined {A : Type} : M A :=
  fun this w => mkRun Undefined this w [].

Notation "x <- m ;; k" := (bind m (fun x => k))
  (at level 61, m at next level, right associativity).
Notation "m ;; k" := (bind m (fun _ => k))
  (at level 61, right associativity).

(** *** Methods called by the wrapper *)

(** The base-class constructor of the member initialiser list. *)
Definition CaffeRTEngine : M unit := invoke CallCaffeRTEngine.
Definition addInput (layerName : string) (dims : Dims) (eleSize : Z) : M unit :=
  invoke (CallAddInput layerName dims eleSize).
Definition addOutput (layerName : string) (dims : Dims) (eleSize : Z) : M unit :=
  invoke (CallAddOutput layerName dims eleSize).
(** [loadCache(cachePath, maxBatchSize = 1)] (TensorRTEngine.h). *)
Definition loadCache (cachePath : string) (maxBatchSize : Z) : M unit :=
  invoke (CallLoadCache cachePath maxBatchSize).
Definition loadModel (prototextPath modelPath : string) (maxBatchSize : Z)
           (dataType : DataType) (maxNetworkSize : Z) : M unit :=
  invoke (CallLoadModel prototextPath modelPath maxBatchSize dataType maxNetworkSize).
Definition saveCache (cachePath : string) : M unit :=
  invoke (CallSaveCache cachePath).
Definition new_ImageNetPreprocessor (mean : float3) : M ptr :=
  invoke (CallNewImageNetPreprocessor mean).
Definition inputFromHost (self host : ptr) (bytes : Z) : M unit :=
  invoke (CallInputFromHost self host bytes).
Definition RBGAtoBGR (self : ptr) (width height mw mh : Z) : M ptr :=
  invoke (CallRBGAtoBGR self width height mw mh).
Definition predict (inputs : LocatedExecutionMemory) (copyOutputToHost : bool)
  : M LocatedExecutionMemory :=
  invoke (CallPredict inputs copyOutputToHost).

(** *** [DIGITSClassifier::DIGITSClassifier] *)

Definition DIGITSClassifier_ctor
           (prototextPath modelPath cachePath : string)
           (nbChannels width height nbClasses maximumBatchSize : Z)
           (imageNetMean : float3) (dataType : DataType) (maxNetworkSize : Z)
  : M unit :=
  CaffeRTEngine ;;
  addInput INPUT_NAME (DimsCHW nbChannels height width) sizeof_float ;;
  let outputDims := Dims_declared in
  let outputDims := Dims_set_nbDims 1 outputDims in
  let outputDims := Dims_set_d0 nbClasses outputDims in
  addOutput OUTPUT_NAME outputDims sizeof_float ;;
  try_catch (loadCache cachePath 1)
            is_ModelDeserializeException
            (loadModel prototextPath modelPath maximumBatchSize dataType
                       maxNetworkSize ;;
             saveCache cachePath) ;;
  set_this (fun o => mkDIGITSClassifier width (modelHeight o) (modelDepth o)
                                        (preprocessor o)) ;;
  set_this (fun o => mkDIGITSClassifier (modelWidth o) height (modelDepth o)
                                        (preprocessor o)) ;;
  set_this (fun o => mkDIGITSClassifier (modelWidth o) (modelHeight o) nbChannels
                                        (preprocessor o)) ;;
  p <- new_ImageNetPreprocessor imageNetMean ;;
  set_this (fun o => mkDIGITSClassifier (modelWidth o) (modelHeight o)
                                        (modelDepth o) p).

(** *** [DIGITSClassifier::classifyRBGA] *)

Definition classifyRBGA (rbga : ptr) (width height : Z) : M ptr :=
  this <- get_this ;;
  inputFromHost (preprocessor this) rbga
                (size_mul (size_mul width height) sizeof_float4) ;;
  this <- get_this ;;
  preprocessedImageDevice <-
    RBGAtoBGR (preprocessor this) width height
              (modelWidth this) (modelHeight this) ;;
  let batchInputs : list (list ptr) := repeat [] 1 in
  let batchInputs :=
    match batchInputs with
    | row :: rest => (row ++ [preprocessedImageDevice]) :: rest
    | [] => []
    end in
  let predictionInputs := mkLocatedExecutionMemory DEVICE batchInputs in
  predictionOutputs <- predict predictionInputs true ;;
  match at_index predictionOutputs 0 0 with
  | Some p => ret p
  | None => undefined
  end.

End Wrapper.

Arguments mkRun {World A} _ _ _ _.
Arguments outcome {World A} _.
Arguments object {World A} _.
Arguments world {World A} _.
Arguments trace {World A} _.

Arguments ret {World A} a.
Arguments prepend {World A} t r.
Arguments bind {World A B} m f.
Arguments try_catch {World A} body accepts handler.
Arguments invoke {World} vendor c.
Arguments get_this {World}.
Arguments set_this {World} f.
Arguments undefined {World A}.
Arguments DIGITSClassifier_ctor {World} vendor _ _ _ _ _ _ _ _ _ _ _.
Arguments classifyRBGA {World} vendor _ _ _.

(* ------------------------------------------------------------------------- *)
(** ** The engine base class

    [TensorRTEngine.h] declares the bookkeeping of the base class; the bodies
    ([TensorRTEngine.cpp], [CaffeRTEngine.cpp], [NetworkIO.h]) are outside
    the files verified here and are modelled from the specification and from
    the documentation comments of the header. *)

(** Modelled from the spec: [NetworkInput] / [NetworkOutput] of the absent
    [NetworkIO.h], a named tensor bound "with declared shapes and element
    sizes". *)
Record NetworkIO : Type := mkNetworkIO {
  io_name : string;
  io_dims : Dims;
  io_eleSize : Z
}.
Definition NetworkInput : Type := NetworkIO.
Definition NetworkOutput : Type := NetworkIO.

(** Modelled from the spec: the size in bytes of a bound tensor, absent with
    [NetworkIO.h]: the product of its declared dimensions times the element
    size. *)
Definition io_size (t : NetworkIO) : Z :=
  fold_right Z.mul 1 (d (io_dims t)) * io_eleSize t.

(** Modelled from the spec: a "host/device buffer" handed out by the absent
    allocation code, with its address, size and location. *)
Record Block : Type := mkBlock {
  block_addr : ptr;
  block_bytes : Z;
  block_location : MemoryLocation
}.

(** The public fields [maxBatchSize], [networkInputs] and [networkOutputs]
    of [TensorRTEngine] (TensorRTEngine.h, lines 140-146) and whether its
    [engine] is set; with them, what the absent bodies see of the outside:
    the cache and model files on disk and the buffers handed out so far. *)
Record Engine : Type := mkEngine {
  maxBatchSize : Z;
  networkInputs : list NetworkInput;
  networkOutputs : list NetworkOutput;
  engineLoaded : bool;
  cacheFiles : list string;
  modelFiles : list string;
  allocated : list Block;
  nextFree : ptr
}.

Definition has_file (path : string) (files : list string) : bool :=
  existsb (String.eqb path) files.

(** Modelled from the spec: the allocation of a buffer of [bytes] bytes at
    [loc], at an address not handed out before. *)
Definition allocate (loc : MemoryLocation) (bytes : Z) (e : Engine) : ptr * Engine :=
  (nextFree e,
   mkEngine (maxBatchSize e) (networkInputs e) (networkOutputs e)
            (engineLoaded e) (cacheFiles e) (modelFiles e)
            (mkBlock (nextFree e) bytes loc :: allocated e)
            (nextFree e + Z.max bytes 1)).

(** Modelled from the spec: one row of the structure of the absent
    [allocInputs] / [allocOutputs], a slot per bound tensor; with
    [skipMalloc] ("Create the input structure but do not allocate memory")
    the slot is created and left null, otherwise it receives a buffer of the
    tensor's size. *)
Fixpoint alloc_row (loc : MemoryLocation) (skipMalloc : bool)
         (ios : list NetworkIO) (e : Engine) : list ptr * Engine :=
  match ios with
  | [] => ([], e)
  | t :: rest =>
      let (p, e1) := if skipMalloc then (nullptr, e)
                     else allocate loc (io_size t) e in
      let (ps, e2) := alloc_row loc skipMalloc rest e1 in
      (p :: ps, e2)
  end.

(** Modelled from the spec: [n] such rows, one for each image of a batch. *)
Fixpoint alloc_batches (loc : MemoryLocation) (skipMalloc : bool)
         (ios : list NetworkIO) (n : nat) (e : Engine)
  : list (list ptr) * Engine :=
  match n with
  | O => ([], e)
  | S k =>
      let (row, e1) := alloc_row loc skipMalloc ios e in
      let (rows, e2) := alloc_batches loc skipMalloc ios k e1 in
      (row :: rows, e2)
  end.

(** Modelled from the spec: [TensorRTEngine::allocInputs], declared in
    TensorRTEngine.h and defined in the absent TensorRTEngine.cpp.  The spec:
    "allocate host/device buffers consistent with the bound tensor shapes";
    the header: "Allocates a located execution memory structure for inputs",
    [location] "Whether the memory should be allocated on the HOST, DEVICE, or
    MAPPED", [skipMalloc] "Create the input structure but do not allocate
    memory".  The structure is indexed by [batchIndex][inputIndex] and has a
    row for each of the [maxBatchSize] images of a batch. *)
Definition allocInputs (loc : MemoryLocation) (skipMalloc : bool) (e : Engine)
  : LocatedExecutionMemory * Engine :=
  let (rows, e') :=
    alloc_batches loc skipMalloc (networkInputs e) (Z.to_nat (maxBatchSize e)) e in
  (mkLocatedExecutionMemory loc rows, e').

(** Modelled from the spec: [TensorRTEngine::allocOutputs], as [allocInputs]
    over the bound outputs (header: "Allocates a located execution memory
    structure for outputs"). *)
Definition allocOutputs (loc : MemoryLocation) (skipMalloc : bool) (e : Engine)
  : LocatedExecutionMemory * Engine :=
  let (rows, e') :=
    alloc_batches loc skipMalloc (networkOutputs e) (Z.to_nat (maxBatchSize e)) e in
  (mkLocatedExecutionMemory loc rows, e').

(** The slot [p] holds a buffer at [loc] sized from the declared dimensions
    and element size of the tensor [t]. *)
Definition sized_buffer (e : Engine) (loc : MemoryLocation) (p : ptr)
           (t : NetworkIO) : Prop :=
  In (mkBlock p (io_size t) loc) (allocated e).

(** A structure with one sized buffer per bound tensor in every row. *)
Definition buffers_for (e : Engine) (ios : list NetworkIO)
           (m : LocatedExecutionMemory) : Prop :=
  Forall (fun row => Forall2 (sized_buffer e (location m)) row ios) (batch m).

(** A structure with one slot per bound tensor in every row. *)
Definition shaped_for (ios : list NetworkIO) (m : LocatedExecutionMemory) : Prop :=
  Forall (fun row => List.length row = List.length ios) (batch m).

(** Modelled from the spec: the engine once an optimized network is loaded or
    built for batches of at most [mbs] images. *)
Definition with_engine (e : Engine) (mbs : Z) : Engine :=
  mkEngine mbs (networkInputs e) (networkOutputs e) true
           (cacheFiles e) (modelFiles e) (allocated e) (nextFree e).

(** Modelled from the spec: the bodies behind the calls of the wrapper, absent
    with TensorRTEngine.cpp, CaffeRTEngine.cpp and ImageNetPreprocessor.
    [addInput] / [addOutput] "bind named input/output tensors with declared
    shapes and element sizes" (appended to [networkInputs] /
    [networkOutputs]); [loadCache] "attempt[s] to deserialize a
    previously-built optimized engine from a cache file" and raises
    [ModelDeserializeException] when there is none; [loadModel] "parse[s] a
    model definition and weights file, build[s] an optimized engine under a
    size/batch budget"; [saveCache] "persist[s] it"; [predict] "execute[s] a
    batched forward pass" and is taken as [DIGITSClassifier.cpp] calls it
    (inputs and a flag in, outputs back).  The shape of its outputs (one row
    per input row, one buffer per bound output), the names of the other
    exceptions and the buffers of the preprocessor are choices of this
    model, stated by neither the spec nor the header: the model serves to
    run the constructor on a concrete engine, and nothing below rests on
    them. *)
Definition engine_model (c : Call) : Engine -> Outcome (ret_type c) * Engine :=
  match c return Engine -> Outcome (ret_type c) * Engine with
  | CallCaffeRTEngine => fun e => (Returns tt, e)
  | CallAddInput layerName dims eleSize => fun e =>
      (Returns tt,
       mkEngine (maxBatchSize e)
                (networkInputs e ++ [mkNetworkIO layerName dims eleSize])
                (networkOutputs e) (engineLoaded e) (cacheFiles e)
                (modelFiles e) (allocated e) (nextFree e))
  | CallAddOutput layerName dims eleSize => fun e =>
      (Returns tt,
       mkEngine (maxBatchSize e) (networkInputs e)
                (networkOutputs e ++ [mkNetworkIO layerName dims eleSize])
                (engineLoaded e) (cacheFiles e) (modelFiles e) (allocated e)
                (nextFree e))
  | CallLoadCache cachePath mbs => fun e =>
      if has_file cachePath (cacheFiles e)
      then (Returns tt, with_engine e mbs)
      else (Throws ModelDeserializeException, e)
  | CallLoadModel prototextPath modelPath mbs _ _ => fun e =>
      if has_file prototextPath (modelFiles e) && has_file modelPath (modelFiles e)
      then (Returns tt, with_engine e mbs)
      else (Throws (OtherException "ModelBuildException"), e)
  | CallSaveCache cachePath => fun e =>
      if engineLoaded e
      then (Returns tt,
            mkEngine (maxBatchSize e) (networkInputs e) (networkOutputs e)
                     (engineLoaded e) (cachePath :: cacheFiles e)
                     (modelFiles e) (allocated e) (nextFree e))
      else (Throws (OtherException "ModelSerializeException"), e)
  | CallNewImageNetPreprocessor _ => fun e =>
      let (p, e') := allocate HOST 1 e in (Returns p, e')
  | CallInputFromHost _ _ bytes => fun e =>
      let (_, e') := allocate DEVICE bytes e in (Returns tt, e')
  | CallRBGAtoBGR _ _ _ mw mh => fun e =>
      let (p, e') := allocate DEVICE (mw * mh * 3 * sizeof_float) e in
      (Returns p, e')
  | CallPredict inputs copyOutputToHost => fun e =>
      if negb (engineLoaded e)
      then (Throws (OtherException "EngineExecutionException"), e)
      else if Z.of_nat (List.length (batch inputs)) >? maxBatchSize e
      then (Throws (OtherException "BatchSizeException"), e)
      else
        let loc := if copyOutputToHost then HOST else DEVICE in
        let (rows, e') :=
          alloc_batches loc false (networkOutputs e)
                        (List.length (batch inputs)) e in
        (Returns (mkLocatedExecutionMemory loc rows), e')
  end.

(** What an allocation leaves alone: the batch size, the bindings, the
    engine, and the buffers handed out before. *)
Definition same_bindings (e e' : Engine) : Prop :=
  maxBatchSize e' = maxBatchSize e /\
  networkInputs e' = networkInputs e /\
  networkOutputs e' = networkOutputs e /\
  engineLoaded e' = engineLoaded e /\
  incl (allocated e) (allocated e').

(** The claim that every allocation call hands back one sized buffer per
    bound tensor, for inputs and for outputs. *)
Definition one_buffer_per_binding (loc : MemoryLocation) (skipMalloc : bool)
           (e : Engine) : Prop :=
  buffers_for (snd (allocInputs loc skipMalloc e)) (networkInputs e)
              (fst (allocInputs loc skipMalloc e)) /\
  buffers_for (snd (allocOutputs loc skipMalloc e)) (networkOutputs e)
              (fst (allocOutputs loc skipMalloc e)).

(** A board before any engine exists, with the files of a DIGITS snapshot on
    disk and the given engine caches. *)
Definition fresh_engine (caches : list string) : Engine :=
  mkEngine 1 [] [] false caches ["deploy.prototxt"; "snapshot.caffemodel"]%string
           [] 1.

(** The storage of a classifier before its constructor has run. *)
Definition raw_object : DIGITSClassifier := mkDIGITSClassifier 0 0 0 nullptr.

(** A GoogLeNet classifier constructed with and without a cache on disk. *)
Definition googlenet (caches : list string) : Run Engine unit :=
  DIGITSClassifier_ctor engine_model "deploy.prototxt" "snapshot.caffemodel"
    "classification.tensorcache" 3 224 224 1000 1 (mkFloat3 0 0 0) kFLOAT
    (2 ^ 30) raw_object (fresh_engine caches).
Definition googlenet_cached : Run Engine unit :=
  googlenet ["classification.tensorcache"%string].
Definition googlenet_built : Run Engine unit := googlenet [].

(** A runtime without state, for running the wrapper against prescribed
    answers: [loadCache] ends as [cache] says, [predict] hands back [outputs],
    everything else returns. *)
Definition scripted (cache : Outcome unit) (outputs : list (list ptr))
           (c : Call) (w : unit) : Outcome (ret_type c) * unit :=
  match c return Outcome (ret_type c) * unit with
  | CallLoadCache _ _ => (cache, w)
  | CallNewImageNetPreprocessor _ => (Returns 1, w)
  | CallRBGAtoBGR _ _ _ _ _ => (Returns 2, w)
  | CallPredict _ copyOutputToHost =>
      (Returns (mkLocatedExecutionMemory
                  (if copyOutputToHost then HOST else DEVICE) outputs), w)
  | CallCaffeRTEngine => (Returns tt, w)
  | CallAddInput _ _ _ => (Returns tt, w)
  | CallAddOutput _ _ _ => (Returns tt, w)
  | CallLoadModel _ _ _ _ _ => (Returns tt, w)
  | CallSaveCache _ => (Returns tt, w)
  | CallInputFromHost _ _ _ => (Returns tt, w)
  end.

(** [ClassRectangle] (DIGITSDetector.h): "a classified region of an image
    with a zero indexed class ID and probability value". *)
Module DIGITSDetector.
Record ClassRectangle : Type := mkClassRectangle {
  id : Z;
  confidence : float32;
  x : Z;
  y : Z;
  w : Z;
  h : Z
}.
Definition CHANNELS_GREYSCALE : Z := 1.
Definition CHANNELS_BGR : Z := 3.
Definition BBOX_DIM_X : Z := 64.
Definition BBOX_DIM_Y : Z := 32.
End DIGITSDetector.

(* ------------------------------------------------------------------------- *)
(** * Properties of the wrapper, for every behaviour of the runtime *)

(** Traces. *)

Lemma next_to_in_l : forall (A : Type) (a b : A) l, next_to a b l -> In a l.
Proof. induction 1; simpl; auto. Qed.

Lemma next_to_in_r : forall (A : Type) (a b : A) l, next_to a b l -> In b l.
Proof. induction 1; simpl; auto. Qed.

Lemma next_to_before : forall (A : Type) (a b : A) l, next_to a b l -> before a b l.
Proof.
  induction 1.
  - apply before_here. simpl. auto.
  - apply before_later. assumption.
Qed.

(** Wrap-around of [size_t] products. *)


Lemma size_mul_assoc_wrap : forall a b c,
  size_mul (size_mul a b) c = size_wrap (a * b * c).
Proof.
  intros a b c. unfold size_mul, size_wrap.
  rewrite Z.mul_mod_idemp_l; [reflexivity | ].
  unfold SIZE_BITS. lia.
Qed.


(** Conversion to [int]. *)


Lemma int_of_size_t_range : forall n,
  - 2 ^ 31 <= int_of_size_t n < 2 ^ 31.
Proof.
  intros n. unfold int_of_size_t, INT_BITS.
  change (2 ^ (32 - 1)) with 2147483648.
  change (2 ^ 32) with 4294967296.
  change (2 ^ 31) with 2147483648.
  pose proof (Z.mod_pos_bound (n + 2147483648) 4294967296 eq_refl). lia.
Qed.

Example int_of_size_t_wraps :
  int_of_size_t 1000 = 1000 /\
  int_of_size_t (2 ^ 32 + 5) = 5 /\
  int_of_size_t (2 ^ 31) = - 2 ^ 31.
Proof. repeat split; reflexivity. Qed.

Ltac unfold_wrapper :=
  unfold DIGITSClassifier_ctor, classifyRBGA, CaffeRTEngine, addInput,
    addOutput, loadCache, DimsCHW, Dims_set_d0, Dims_set_nbDims, Dims_declared,
    loadModel, saveCache, new_ImageNetPreprocessor, inputFromHost, RBGAtoBGR,
    predict, bind, try_catch, invoke, get_this, set_this, ret, undefined.

Ltac simp_run :=
  cbn [prepend app outcome object world trace reply_of to_value
       is_ModelDeserializeException repeat nbDims d tl].

(** Case analysis on the next call that leaves the translation unit. *)
Ltac step_call vendor :=
  match goal with
  | |- context [vendor ?c ?w] =>
      is_var w;
      let o := fresh "o" in
      let w' := fresh "w" in
      let E := fresh "E" in
      destruct (vendor c w) as [o w'] eqn:E;
      destruct o as [? | [ | ?] | ]; simp_run
  | |- context [at_index ?m 0 0] =>
      is_var m;
      let E := fresh "E" in
      destruct (at_index m 0 0) eqn:E; simp_run
  end.

Ltac break_in :=
  repeat match goal with
  | H : In _ [] |- _ => destruct H
  | H : In _ (_ :: _) |- _ =>
      destruct H as [H | H];
      [ first [ discriminate H
              | progress (injection H; clear H; intros; subst)
              | subst ]
      | ]
  | H : before _ _ [] |- _ => inversion H
  | H : before _ _ (_ :: _) |- _ => inversion H; clear H; try subst
  end.





(** Runs against prescribed answers: an exception of [loadCache] that the
    handler does not accept leaves the constructor, and nothing is built. *)
Example ctor_other_exception :
  let r := DIGITSClassifier_ctor
             (scripted (Throws (OtherException "std::bad_alloc")) [])
             "deploy.prototxt" "snapshot.caffemodel" "c.tensorcache"
             3 224 224 1000 1 (mkFloat3 0 0 0) kFLOAT (2 ^ 30) raw_object tt in
  outcome r = Throws (OtherException "std::bad_alloc") /\
  map call (trace r) =
    [CallCaffeRTEngine;
     CallAddInput "data" (mkDims 3 [3; 224; 224]) 4;
     CallAddOutput "prob" (mkDims 1 [1000]) 4;
     CallLoadCache "c.tensorcache" 1].
Proof. split; reflexivity. Qed.

(** [classifyRBGA] does not check the outputs it indexes: were [predict] to
    hand back no row, or an empty row, the access would be out of range. *)
Example classify_unchecked_index :
  outcome (classifyRBGA (scripted (Returns tt) []) 4096 640 480 raw_object tt)
    = Undefined /\
  outcome (classifyRBGA (scripted (Returns tt) [[]]) 4096 640 480 raw_object tt)
    = Undefined /\
  outcome (classifyRBGA (scripted (Returns tt) [[7; 8]; [9]]) 4096 640 480
             raw_object tt)
    = Returns 7.
Proof. repeat split; reflexivity. Qed.

(** A [size_t] product wraps: an image of 2^32 x 2^28 pixels, which no
    address space holds, would be staged as 0 bytes. *)
Example size_mul_wraps :
  size_mul (size_mul (2 ^ 32) (2 ^ 28)) sizeof_float4 = 0 /\
  size_mul (size_mul 640 480) sizeof_float4 = 4915200.
Proof. split; reflexivity. Qed.

Section WrapperFacts.

Variable World : Type.
Variable vendor : forall c : Call, World -> Outcome (ret_type c) * World.







(** C9.  When the constructor returns, by either path, [modelWidth],
    [modelHeight] and [modelDepth] hold the arguments [width], [height] and
    [nbChannels]; and [classifyRBGA], however it ends, leaves the object as
    it found it. *)
Theorem model_fields_fixed :
  forall prototextPath modelPath cachePath nbChannels width height nbClasses
         maximumBatchSize imageNetMean dataType maxNetworkSize this0 w0,
    let r := DIGITSClassifier_ctor vendor prototextPath modelPath cachePath
               nbChannels width height nbClasses maximumBatchSize imageNetMean
               dataType maxNetworkSize this0 w0 in
    outcome r = Returns tt ->
    (modelWidth (object r) = width /\
     modelHeight (object r) = height /\
     modelDepth (object r) = nbChannels) /\
    (forall this w rbga width' height',
       object (classifyRBGA vendor rbga width' height' this w) = this).
Proof.
  intros until w0. intros r Hr. split.
  - subst r. revert Hr. unfold_wrapper. simp_run.
    repeat step_call vendor.
    all: intros Hr; try discriminate Hr.
    all: cbn; auto.
  - intros. unfold_wrapper. simp_run.
    repeat step_call vendor.
    all: reflexivity.
Qed.

End WrapperFacts.

(* ------------------------------------------------------------------------- *)
(** * The engine's buffers *)

Lemma allocate_allocated : forall loc bytes e,
  allocated (snd (allocate loc bytes e)) =
  mkBlock (fst (allocate loc bytes e)) bytes loc :: allocated e.
Proof. reflexivity. Qed.

Lemma alloc_row_length : forall loc skip ios e,
  List.length (fst (alloc_row loc skip ios e)) = List.length ios.
Proof.
  intros loc skip ios. induction ios as [ | t rest IH]; intros e; simpl.
  - reflexivity.
  - destruct skip.
    + specialize (IH e). destruct (alloc_row loc true rest e). simpl in *. congruence.
    + specialize (IH (snd (allocate loc (io_size t) e))).
      cbn [allocate snd] in *.
      match goal with
      | |- context [alloc_row ?a ?b ?c ?x] => destruct (alloc_row a b c x)
      end.
      simpl in *. congruence.
Qed.

Lemma same_bindings_refl : forall e, same_bindings e e.
Proof. intros e. repeat split. apply incl_refl. Qed.

Lemma same_bindings_trans : forall e1 e2 e3,
  same_bindings e1 e2 -> same_bindings e2 e3 -> same_bindings e1 e3.
Proof.
  intros e1 e2 e3 (A & B & C & D & E) (A' & B' & C' & D' & E').
  repeat split; try congruence. eapply incl_tran; eassumption.
Qed.

Lemma allocate_same_bindings : forall loc bytes e,
  same_bindings e (snd (allocate loc bytes e)).
Proof. intros. repeat split. cbn. apply incl_tl, incl_refl. Qed.

Lemma alloc_row_same_bindings : forall loc skip ios e,
  same_bindings e (snd (alloc_row loc skip ios e)).
Proof.
  intros loc skip ios. induction ios as [ | t rest IH]; intros e; simpl.
  - apply same_bindings_refl.
  - destruct skip.
    + specialize (IH e). destruct (alloc_row loc true rest e). exact IH.
    + pose proof (allocate_same_bindings loc (io_size t) e) as H1.
      specialize (IH (snd (allocate loc (io_size t) e))).
      cbn [allocate snd] in *.
      match goal with
      | |- context [alloc_row ?a ?b ?c ?x] => destruct (alloc_row a b c x)
      end.
      eapply same_bindings_trans; eassumption.
Qed.

Lemma sized_buffer_mono : forall e e' loc p t,
  same_bindings e e' -> sized_buffer e loc p t -> sized_buffer e' loc p t.
Proof.
  unfold sized_buffer. intros e e' loc p t (_ & _ & _ & _ & Hincl) H.
  apply Hincl. exact H.
Qed.

Lemma Forall2_sized_mono : forall e e' loc row ios,
  same_bindings e e' ->
  Forall2 (sized_buffer e loc) row ios -> Forall2 (sized_buffer e' loc) row ios.
Proof.
  intros e e' loc row ios Hs H. induction H; constructor; auto.
  eapply sized_buffer_mono; eassumption.
Qed.

(** Without [skipMalloc] every slot of a row is a buffer of its tensor. *)
Lemma alloc_row_sized : forall loc ios e,
  Forall2 (sized_buffer (snd (alloc_row loc false ios e)) loc)
          (fst (alloc_row loc false ios e)) ios.
Proof.
  intros loc ios. induction ios as [ | t rest IH]; intros e; simpl.
  - constructor.
  - pose proof (alloc_row_same_bindings loc false rest
                  (snd (allocate loc (io_size t) e))) as Hs.
    specialize (IH (snd (allocate loc (io_size t) e))).
    cbn [allocate snd] in *.
    match goal with
    | |- context [alloc_row ?a ?b ?c ?x] => destruct (alloc_row a b c x) as [ps e2]
    end.
    cbn [fst snd] in *. constructor.
    + destruct Hs as (_ & _ & _ & _ & Hincl). apply Hincl. cbn. auto.
    + exact IH.
Qed.

(** With [skipMalloc] nothing is allocated and every slot is null. *)
Lemma alloc_row_skipped : forall loc ios e,
  snd (alloc_row loc true ios e) = e /\
  Forall (eq nullptr) (fst (alloc_row loc true ios e)).
Proof.
  intros loc ios. induction ios as [ | t rest IH]; intros e; simpl.
  - split; [reflexivity | constructor].
  - specialize (IH e). destruct (alloc_row loc true rest e) as [ps e2].
    cbn [fst snd] in *. destruct IH as [-> IH]. split; [reflexivity | ].
    constructor; [reflexivity | exact IH].
Qed.

Lemma alloc_batches_rows : forall loc skip ios n e,
  List.length (fst (alloc_batches loc skip ios n e)) = n /\
  Forall (fun row => List.length row = List.length ios)
         (fst (alloc_batches loc skip ios n e)).
Proof.
  intros loc skip ios n. induction n as [ | k IH]; intros e; simpl.
  - split; [reflexivity | constructor].
  - pose proof (alloc_row_length loc skip ios e) as Hlen.
    destruct (alloc_row loc skip ios e) as [row e1].
    specialize (IH e1). destruct (alloc_batches loc skip ios k e1) as [rows e2].
    cbn [fst snd] in *. destruct IH as [IH1 IH2]. split.
    + simpl. congruence.
    + constructor; assumption.
Qed.

Lemma alloc_batches_same_bindings : forall loc skip ios n e,
  same_bindings e (snd (alloc_batches loc skip ios n e)).
Proof.
  intros loc skip ios n. induction n as [ | k IH]; intros e; simpl.
  - apply same_bindings_refl.
  - pose proof (alloc_row_same_bindings loc skip ios e) as H1.
    destruct (alloc_row loc skip ios e) as [row e1].
    specialize (IH e1). destruct (alloc_batches loc skip ios k e1) as [rows e2].
    cbn [fst snd] in *. eapply same_bindings_trans; eassumption.
Qed.

Lemma alloc_batches_sized : forall loc ios n e,
  Forall (fun row =>
            Forall2 (sized_buffer (snd (alloc_batches loc false ios n e)) loc) row ios)
         (fst (alloc_batches loc false ios n e)).
Proof.
  intros loc ios n. induction n as [ | k IH]; intros e; simpl.
  - constructor.
  - pose proof (alloc_row_sized loc ios e) as Hrow.
    destruct (alloc_row loc false ios e) as [row e1].
    pose proof (alloc_batches_same_bindings loc false ios k e1) as Hs.
    specialize (IH e1). destruct (alloc_batches loc false ios k e1) as [rows e2].
    cbn [fst snd] in *. constructor.
    + eapply Forall2_sized_mono; eassumption.
    + exact IH.
Qed.

Lemma alloc_batches_skipped : forall loc ios n e,
  snd (alloc_batches loc true ios n e) = e /\
  Forall (Forall (eq nullptr)) (fst (alloc_batches loc true ios n e)).
Proof.
  intros loc ios n. induction n as [ | k IH]; intros e; simpl.
  - split; [reflexivity | constructor].
  - pose proof (alloc_row_skipped loc ios e) as Hrow.
    destruct (alloc_row loc true ios e) as [row e1].
    cbn [fst snd] in Hrow. destruct Hrow as [-> Hrow].
    specialize (IH e). destruct (alloc_batches loc true ios k e) as [rows e2].
    cbn [fst snd] in *. destruct IH as [-> IH]. split; [reflexivity | ].
    constructor; assumption.
Qed.

Example googlenet_cached_trace :
  outcome googlenet_cached = Returns tt /\
  map call (trace googlenet_cached) =
    [CallCaffeRTEngine;
     CallAddInput "data" (mkDims 3 [3; 224; 224]) 4;
     CallAddOutput "prob" (mkDims 1 [1000]) 4;
     CallLoadCache "classification.tensorcache" 1;
     CallNewImageNetPreprocessor (mkFloat3 0 0 0)].
Proof. split; reflexivity. Qed.

Example googlenet_built_trace :
  outcome googlenet_built = Returns tt /\
  map call (trace googlenet_built) =
    [CallCaffeRTEngine;
     CallAddInput "data" (mkDims 3 [3; 224; 224]) 4;
     CallAddOutput "prob" (mkDims 1 [1000]) 4;
     CallLoadCache "classification.tensorcache" 1;
     CallLoadModel "deploy.prototxt" "snapshot.caffemodel" 1 kFLOAT (2 ^ 30);
     CallSaveCache "classification.tensorcache";
     CallNewImageNetPreprocessor (mkFloat3 0 0 0)].
Proof. split; reflexivity. Qed.

(** C8, as stated, fails when [skipMalloc] is set: the structure for the
    bound input of a constructed classifier has a slot, and no buffer. *)
Lemma alloc_skipMalloc_has_no_buffer :
  ~ one_buffer_per_binding HOST true (world googlenet_cached).
Proof.
  intros [Hin _]. cbv in Hin.
  inversion Hin as [ | row rows Hrow _ ]; subst.
  inversion Hrow as [ | p t ps ts Hp _ ]; subst.
  destruct Hp as [Hp | []]. discriminate Hp.
Qed.

(** C8, amended.  [allocInputs] and [allocOutputs] hand back a structure at
    the requested location with [maxBatchSize] rows and, in every row, one
    slot per bound input (respectively output), and they leave the bindings
    as they are.  Without [skipMalloc] every slot holds a buffer sized from
    the declared dimensions and element size of its tensor; with [skipMalloc]
    nothing is allocated and every slot is null. *)
Theorem alloc_follows_bindings :
  forall loc skipMalloc e,
    let mi := fst (allocInputs loc skipMalloc e) in
    let ei := snd (allocInputs loc skipMalloc e) in
    let mo := fst (allocOutputs loc skipMalloc e) in
    let eo := snd (allocOutputs loc skipMalloc e) in
    (location mi = loc /\
     List.length (batch mi) = Z.to_nat (maxBatchSize e) /\
     shaped_for (networkInputs e) mi /\
     same_bindings e ei /\
     if skipMalloc
     then ei = e /\ Forall (Forall (eq nullptr)) (batch mi)
     else buffers_for ei (networkInputs e) mi) /\
    (location mo = loc /\
     List.length (batch mo) = Z.to_nat (maxBatchSize e) /\
     shaped_for (networkOutputs e) mo /\
     same_bindings e eo /\
     if skipMalloc
     then eo = e /\ Forall (Forall (eq nullptr)) (batch mo)
     else buffers_for eo (networkOutputs e) mo).
Proof.
  intros loc skipMalloc e. cbv zeta.
  unfold allocInputs, allocOutputs, shaped_for, buffers_for.
  split.
  - pose proof (alloc_batches_rows loc skipMalloc (networkInputs e)
                  (Z.to_nat (maxBatchSize e)) e) as [Hn Hrows].
    pose proof (alloc_batches_same_bindings loc skipMalloc (networkInputs e)
                  (Z.to_nat (maxBatchSize e)) e) as Hs.
    pose proof (alloc_batches_sized loc (networkInputs e)
                  (Z.to_nat (maxBatchSize e)) e) as Hsized.
    pose proof (alloc_batches_skipped loc (networkInputs e)
                  (Z.to_nat (maxBatchSize e)) e) as Hskip.
    destruct skipMalloc;
      destruct (alloc_batches loc _ (networkInputs e) _ e) as [rows e'];
      cbn [fst snd location batch] in *; repeat split;
      solve [tauto | apply Hs].
  - pose proof (alloc_batches_rows loc skipMalloc (networkOutputs e)
                  (Z.to_nat (maxBatchSize e)) e) as [Hn Hrows].
    pose proof (alloc_batches_same_bindings loc skipMalloc (networkOutputs e)
                  (Z.to_nat (maxBatchSize e)) e) as Hs.
    pose proof (alloc_batches_sized loc (networkOutputs e)
                  (Z.to_nat (maxBatchSize e)) e) as Hsized.
    pose proof (alloc_batches_skipped loc (networkOutputs e)
                  (Z.to_nat (maxBatchSize e)) e) as Hskip.
    destruct skipMalloc;
      destruct (alloc_batches loc _ (networkOutputs e) _ e) as [rows e'];
      cbn [fst snd location batch] in *; repeat split;
      solve [tauto | apply Hs].
Qed.

(** The model fields after a construction from the cache and after a
    construction that built the engine. *)
Lemma model_fields_fixed_googlenet :
  (outcome googlenet_cached = Returns tt /\
   (modelWidth (object googlenet_cached) = 224 /\
    modelHeight (object googlenet_cached) = 224 /\
    modelDepth (object googlenet_cached) = 3) /\
   (forall this w rbga width' height',
      object (classifyRBGA engine_model rbga width' height' this w) = this)) /\
  (outcome googlenet_built = Returns tt /\
   (modelWidth (object googlenet_built) = 224 /\
    modelHeight (object googlenet_built) = 224 /\
    modelDepth (object googlenet_built) = 3) /\
   (forall this w rbga width' height',
      object (classifyRBGA engine_model rbga width' height' this w) = this)).
Proof.
  split.
  - split; [reflexivity | ].
    exact (model_fields_fixed Engine engine_model "deploy.prototxt"
             "snapshot.caffemodel" "classification.tensorcache" 3 224 224 1000
             1 (mkFloat3 0 0 0) kFLOAT (2 ^ 30) raw_object
             (fresh_engine ["classification.tensorcache"%string]) eq_refl).
  - split; [reflexivity | ].
    exact (model_fields_fixed Engine engine_model "deploy.prototxt"
             "snapshot.caffemodel" "classification.tensorcache" 3 224 224 1000
             1 (mkFloat3 0 0 0) kFLOAT (2 ^ 30) raw_object
             (fresh_engine []) eq_refl).
Defined.

(* ------------------------------------------------------------------------- *)
(** * Further behaviour of the wrapper, for every behaviour of the runtime *)

Section WrapperBehaviour.

Variable World : Type.
Variable vendor : forall c : Call, World -> Outcome (ret_type c) * World.

(** X1.  As long as the constructor does not reach [loadModel] (the cache
    load returned, or a call before the build failed), the run does not
    depend on [prototextPath], [modelPath], [maximumBatchSize], [dataType]
    or [maxNetworkSize]: the cache is loaded with the default batch size 1
    whatever batch budget the caller asked for. *)
Theorem ctor_cache_hit_ignores_budget :
  forall prototextPath modelPath cachePath nbChannels width height nbClasses
         maximumBatchSize imageNetMean dataType maxNetworkSize
         prototextPath' modelPath' maximumBatchSize' dataType' maxNetworkSize'
         this0 w0,
    let r := DIGITSClassifier_ctor vendor prototextPath modelPath cachePath
               nbChannels width height nbClasses maximumBatchSize imageNetMean
               dataType maxNetworkSize this0 w0 in
    let r' := DIGITSClassifier_ctor vendor prototextPath' modelPath' cachePath
                nbChannels width height nbClasses maximumBatchSize'
                imageNetMean dataType' maxNetworkSize' this0 w0 in
    count_calls is_LoadModel (trace r) = 0%nat -> r' = r.
Proof.
  intros until w0. intros r r'. subst r r'. unfold_wrapper. simp_run.
  repeat step_call vendor.
  all: cbn; intros H; try discriminate H; reflexivity.
Qed.



(** X4.  [classifyRBGA] catches nothing and stops at the first failure: a
    call that throws is its last call and its exception is the outcome; when
    it throws, its last call threw that exception; every call but the last
    returned; and it makes between one and three calls. *)
Theorem classify_error_propagation :
  forall rbga width height this w0,
    let r := classifyRBGA vendor rbga width height this w0 in
    let t := trace r in
    (forall ev e, In ev t -> reply ev = Threw e ->
       last_event t = Some ev /\ outcome r = Throws e) /\
    (forall e, outcome r = Throws e ->
       exists c, last_event t = Some (mkEvent c (Threw e))) /\
    (forall ev, In ev t -> last_event t <> Some ev ->
       exists v, reply ev = Returned v) /\
    (1 <= List.length t <= 3)%nat /\
    (forall ev, In ev t -> is_Predict (call ev) = true ->
       List.length t = 3%nat /\ last_event t = Some ev).
Proof.
  intros. subst t r. unfold_wrapper. simp_run.
  repeat step_call vendor.
  all: unfold last_event; cbn [rev app hd_error].
  all: repeat apply conj.
  all: try solve [cbn; lia].
  all: try solve [intros ev e0 Hin Hrep; break_in; cbn in Hrep;
                  try discriminate Hrep; injection Hrep as <-;
                  split; reflexivity].
  all: try solve [intros e0 He; try discriminate He; injection He as <-;
                  eexists; reflexivity].
  all: try solve [intros ev Hin Hlast; break_in;
                  first [ exfalso; apply Hlast; reflexivity
                        | eexists; reflexivity ]].
  all: try solve [intros ev Hin Hc; break_in; cbn in Hc; try discriminate Hc;
                  split; reflexivity].
Qed.

(** X5.  [classifyRBGA] returns [v] exactly when its last call is a [predict]
    that returned outputs holding [v] at batch index 0, output index 0.  Its
    behaviour is undefined exactly when a call's was, or when [predict]
    returned outputs without such an entry: the index is not checked. *)
Theorem classify_returns_iff_indexable :
  forall rbga width height this w0,
    let r := classifyRBGA vendor rbga width height this w0 in
    let t := trace r in
    (forall v,
       outcome r = Returns v <->
       exists inputs outputs,
         last_event t =
           Some (mkEvent (CallPredict inputs true) (Returned (VMemory outputs))) /\
         at_index outputs 0 0 = Some v) /\
    (outcome r = Undefined <->
     (exists c, last_event t = Some (mkEvent c Crashed)) \/
     (exists inputs outputs,
        last_event t =
          Some (mkEvent (CallPredict inputs true) (Returned (VMemory outputs))) /\
        at_index outputs 0 0 = None)).
Proof.
  intros. subst t r. unfold_wrapper. simp_run.
  repeat step_call vendor.
  all: unfold last_event; cbn [rev app hd_error].
  all: split; [intros v; split | split].
  all: try solve [intros H; discriminate H].
  all: try solve [intros H; injection H as <-;
                  do 2 eexists; split; [reflexivity | assumption]].
  all: try solve [intros (inputs & outputs & Hl & Hat); try discriminate Hl;
                  injection Hl as _ <-; congruence].
  all: try solve [intros _; left; eexists; reflexivity].
  all: try solve [intros _; right; do 2 eexists; split; [reflexivity | assumption]].
  all: try solve [intros [[c Hl] | (inputs & outputs & Hl & Hat)];
                  try discriminate Hl; try reflexivity;
                  injection Hl as _ <-; congruence].
Qed.

(** X6.  [classifyRBGA] reads [preprocessor], [modelWidth] and [modelHeight]
    and nothing else of the object: with another [modelDepth] it makes the
    same calls, ends the same way and leaves the same world. *)
Theorem classify_ignores_modelDepth :
  forall rbga width height this depth w0,
    let this' := mkDIGITSClassifier (modelWidth this) (modelHeight this) depth
                                    (preprocessor this) in
    let r := classifyRBGA vendor rbga width height this w0 in
    let r' := classifyRBGA vendor rbga width height this' w0 in
    outcome r' = outcome r /\ trace r' = trace r /\ world r' = world r /\
    object r' = this'.
Proof.
  intros rbga width height [mw mh md pre] depth w0.
  cbn [modelWidth modelHeight preprocessor]. cbv zeta.
  unfold_wrapper. simp_run.
  repeat (cbn [modelWidth modelHeight preprocessor]; step_call vendor).
  all: repeat split; reflexivity.
Qed.

(** X7.  The constructor reads no field before writing it: whatever the
    storage held, it makes the same calls, ends the same way and leaves the
    same world, and when it returns the object is exactly ([width],
    [height], [nbChannels], the pointer its [new ImageNetPreprocessor]
    returned). *)
Theorem ctor_initialises_object :
  forall prototextPath modelPath cachePath nbChannels width height nbClasses
         maximumBatchSize imageNetMean dataType maxNetworkSize this0 this0' w0,
    let r := DIGITSClassifier_ctor vendor prototextPath modelPath cachePath
               nbChannels width height nbClasses maximumBatchSize imageNetMean
               dataType maxNetworkSize this0 w0 in
    let r' := DIGITSClassifier_ctor vendor prototextPath modelPath cachePath
                nbChannels width height nbClasses maximumBatchSize imageNetMean
                dataType maxNetworkSize this0' w0 in
    outcome r' = outcome r /\ trace r' = trace r /\ world r' = world r /\
    (outcome r = Returns tt ->
     object r' = object r /\
     exists p,
       object r = mkDIGITSClassifier width height nbChannels p /\
       last_event (trace r) =
         Some (mkEvent (CallNewImageNetPreprocessor imageNetMean)
                       (Returned (VPtr p)))).
Proof.
  intros. subst r r'. unfold_wrapper. simp_run.
  repeat step_call vendor.
  all: repeat split; try reflexivity; try discriminate.
  all: eexists; split; reflexivity.
Qed.

(** The byte count [width * height * sizeof(float4)] as [size_t] computes
    it. *)
Lemma staged_bytes_facts : forall width height,
  let bytes := size_mul (size_mul width height) sizeof_float4 in
  0 <= bytes < 2 ^ SIZE_BITS /\
  bytes mod sizeof_float4 = 0 /\
  bytes = size_mul (size_mul height width) sizeof_float4 /\
  (0 <= width -> 0 <= height ->
   (bytes = width * height * sizeof_float4 <-> width * height < 2 ^ 60)).
Proof.
  intros width height bytes. subst bytes.
  assert (E64 : 2 ^ SIZE_BITS = 18446744073709551616) by reflexivity.
  assert (E60 : 2 ^ 60 = 1152921504606846976) by reflexivity.
  rewrite !size_mul_assoc_wrap. unfold size_wrap, sizeof_float4.
  rewrite E64, E60.
  assert (Hb : 0 <= (width * height * 16) mod 18446744073709551616
               < 18446744073709551616)
    by (apply Z.mod_pos_bound; lia).
  repeat split.
  - apply Hb.
  - apply Hb.
  - rewrite Z.mod_mod_divide; [apply Z_mod_mult | ].
    exists 1152921504606846976. reflexivity.
  - f_equal. ring.
  - intros Heq. lia.
  - intros Hlt. apply Z.mod_small. nia.
Qed.


(** X8.  The first call of [classifyRBGA] stages a byte count that is always
    a whole number of [float4] pixels below 2^64, the same for the
    transposed image size, and equal to [width * height * 16] exactly when
    the image has fewer than 2^60 pixels; beyond that the count wraps and
    fewer bytes are staged than the image holds. *)
Theorem classify_staged_bytes :
  forall rbga width height this w0,
    let r := classifyRBGA vendor rbga width height this w0 in
    exists rp bytes,
      hd_error (trace r) =
        Some (mkEvent (CallInputFromHost (preprocessor this) rbga bytes) rp) /\
      0 <= bytes < 2 ^ SIZE_BITS /\
      bytes mod sizeof_float4 = 0 /\
      bytes = size_mul (size_mul height width) sizeof_float4 /\
      (0 <= width -> 0 <= height ->
       (bytes = width * height * sizeof_float4 <-> width * height < 2 ^ 60)).
Proof.
  intros rbga width height this w0 r. subst r.
  pose proof (staged_bytes_facts width height) as Hfacts. cbv zeta in Hfacts.
  unfold_wrapper. simp_run.
  repeat step_call vendor.
  all: do 2 eexists; split; [reflexivity | exact Hfacts].
Qed.


End WrapperBehaviour.

(** Runs of the two methods against prescribed answers. *)

Lemma ctor_cache_hit_ignores_budget_scripted :
  count_calls is_LoadModel
    (trace (DIGITSClassifier_ctor (scripted (Returns tt) [[7]])
              "deploy.prototxt" "snapshot.caffemodel" "c.tensorcache"
              3 224 224 1000 1 (mkFloat3 0 0 0) kFLOAT (2 ^ 30) raw_object tt))
    = 0%nat /\
  DIGITSClassifier_ctor (scripted (Returns tt) [[7]])
    "other.prototxt" "other.caffemodel" "c.tensorcache"
    3 224 224 1000 8 (mkFloat3 0 0 0) kHALF 1024 raw_object tt =
  DIGITSClassifier_ctor (scripted (Returns tt) [[7]])
    "deploy.prototxt" "snapshot.caffemodel" "c.tensorcache"
    3 224 224 1000 1 (mkFloat3 0 0 0) kFLOAT (2 ^ 30) raw_object tt.
Proof.
  split; [reflexivity | ].
  exact (ctor_cache_hit_ignores_budget unit (scripted (Returns tt) [[7]])
           "deploy.prototxt" "snapshot.caffemodel" "c.tensorcache"
           3 224 224 1000 1 (mkFloat3 0 0 0) kFLOAT (2 ^ 30)
           "other.prototxt" "other.caffemodel" 8 kHALF 1024 raw_object tt
           eq_refl).
Defined.

